(** * Presentational components of the dashboard and trace views

    A shallow embedding of four TypeScript/React sources:

    - the breadcrumb [Icon] selector (a [switch] over [BreadcrumbType]);
    - the [useOrganization] / [useOrgSlug] context accessors;
    - the [TransactionGroup] class component (one boolean of state, a
      toggle method and a render method);
    - the [DashboardsV2Container] route container.

    JSX elements are first-order data (the component that is instantiated
    together with the props it receives), closures handed to child
    components are defunctionalised, thrown errors are a result type, and
    component instances live in a store indexed by instance identity. *)

From stdpp Require Import base option strings list gmap.

Local Open Scope string_scope.

(** ** JavaScript control flow shared by the components *)

(** The outcome of a call that may [throw]. *)
Inductive Completion (E A : Type) : Type :=
| Returned (value : A)
| Thrown (error : E).
Arguments Returned {E A} value.
Arguments Thrown {E A} error.

#[global] Instance Completion_ret {E} : MRet (Completion E) :=
  λ A (a : A), Returned a.

#[global] Instance Completion_bind {E} : MBind (Completion E) :=
  λ A B (k : A → Completion E B) (c : Completion E A),
    match c with
    | Returned a => k a
    | Thrown e => Thrown e
    end.

(** [new Error(message)]. *)
Record JsError := MkError { message : string }.

(** ** The breadcrumb icon selector *)
Module BreadcrumbIcon.

(** Modelled from the spec: the enumeration [BreadcrumbType] is imported
    from [app/types/breadcrumbs], which is not among the sources.  The
    twelve members the selector names are constructors; [UNLISTED]
    stands for every other value the enumeration holds now or later,
    told apart by its raw tag. *)
Inductive BreadcrumbType :=
| USER | UI | NAVIGATION | DEBUG | INFO | ERROR | HTTP | WARNING
| QUERY | SYSTEM | SESSION | TRANSACTION
| UNLISTED (raw : string).

#[global] Instance BreadcrumbType_eq_dec : EqDecision BreadcrumbType.
Proof. solve_decision. Defined.

(** The icon components imported from [app/icons], in import order. *)
Inductive IconComponent :=
| IconFire | IconFix | IconInfo | IconLocation | IconMobile | IconRefresh
| IconSpan | IconStack | IconSwitch | IconTerminal | IconUser | IconWarning.

#[global] Instance IconComponent_eq_dec : EqDecision IconComponent.
Proof. solve_decision. Defined.

(** A JSX element [<C size="..." />]: the glyph token. *)
Record IconElement := MkIcon { component : IconComponent; size : string }.

#[global] Instance IconElement_eq_dec : EqDecision IconElement.
Proof. solve_decision. Defined.

Record Props := MkProps { type : BreadcrumbType }.

(** [function Icon({type}: Props)]: the switch, case by case; [USER]
    falls through to [UI]. *)
Definition Icon (props : Props) : IconElement :=
  match type props with
  | USER
  | UI => MkIcon IconUser "xs"
  | NAVIGATION => MkIcon IconLocation "xs"
  | DEBUG => MkIcon IconFix "xs"
  | INFO => MkIcon IconInfo "xs"
  | ERROR => MkIcon IconFire "xs"
  | HTTP => MkIcon IconSwitch "xs"
  | WARNING => MkIcon IconWarning "xs"
  | QUERY => MkIcon IconStack "xs"
  | SYSTEM => MkIcon IconMobile "xs"
  | SESSION => MkIcon IconRefresh "xs"
  | TRANSACTION => MkIcon IconSpan "xs"
  | _ => MkIcon IconTerminal "xs"
  end.

(** The category values the selector has a [case] label for. *)
Definition definedCategories : list BreadcrumbType :=
  [USER; UI; NAVIGATION; DEBUG; INFO; ERROR; HTTP; WARNING;
   QUERY; SYSTEM; SESSION; TRANSACTION].

Definition isDefined (t : BreadcrumbType) : bool :=
  bool_decide (t ∈ definedCategories).

(** The glyph of the [default:] branch. *)
Definition defaultGlyph : IconElement := MkIcon IconTerminal "xs".

(** The icons the file imports: every glyph the selector can return is
    one of these at size ["xs"]. *)
Definition importedIcons : list IconComponent :=
  [IconFire; IconFix; IconInfo; IconLocation; IconMobile; IconRefresh;
   IconSpan; IconStack; IconSwitch; IconTerminal; IconUser; IconWarning].

Definition isGlyph (g : IconElement) : bool :=
  bool_decide (component g ∈ importedIcons) && String.eqb (size g) "xs".

(** The case labels of the switch paired with the component each one
    returns, read off as a table. *)
Definition referenceTable : list (BreadcrumbType * IconComponent) :=
  [(USER, IconUser); (UI, IconUser); (NAVIGATION, IconLocation);
   (DEBUG, IconFix); (INFO, IconInfo); (ERROR, IconFire);
   (HTTP, IconSwitch); (WARNING, IconWarning); (QUERY, IconStack);
   (SYSTEM, IconMobile); (SESSION, IconRefresh); (TRANSACTION, IconSpan)].

Fixpoint tableLookup (t : BreadcrumbType)
    (table : list (BreadcrumbType * IconComponent)) : option IconComponent :=
  match table with
  | [] => None
  | (k, c) :: rest => if decide (k = t) then Some c else tableLookup t rest
  end.

(** The property of the specification: distinct defined categories get
    distinct glyphs. *)
Definition distinctGlyphs : Prop :=
  ∀ a b : BreadcrumbType,
    isDefined a = true → isDefined b = true → a ≠ b →
    Icon (MkProps a) ≠ Icon (MkProps b).

End BreadcrumbIcon.

(** ** Types owned by collaborators

    The sources import these and only pass their values along, so they
    are parameters of the development. *)
Class Collaborators := {
  Location : Type;          (* [history]'s location object *)
  RouteParams : Type;       (* [{orgId: string}] as the router supplies it *)
  Client : Type;            (* [app/api]'s client *)
  ReactNode : Type;         (* [React.ReactNode] built by a caller *)
  Transaction : Type;       (* [TraceRoot | TraceFullDetailed] *)
  TraceInfo : Type;
  TreeDepth : Type;
  DashboardDetails : Type;  (* a loaded dashboard object *)
  DashboardList : Type;     (* the loader's [dashboards] value *)
  ReloadData : Type;        (* the loader's [reloadData] callback *)
}.

(** Modelled from the spec: [Organization] is declared in [app/types],
    which is not among the sources.  The record keeps the two fields the
    sources read, [slug] and [features]. *)
Record Organization := MkOrganization {
  slug : string;
  features : list string;
}.

(** [Array.prototype.includes] on an array of strings. *)
Fixpoint includes (xs : list string) (x : string) : bool :=
  match xs with
  | [] => false
  | y :: rest => if String.eqb y x then true else includes rest x
  end.

(** ** The organization accessors *)
Module UseOrganization.

(** Modelled from the spec: [OrganizationContext] is declared in
    [app/views/organizationContext], which is not among the sources.  The
    value [useContext] reads from it is the organization of the nearest
    enclosing provider, or absent when no provider is mounted. *)
Definition OrganizationContext : Type := option Organization.

Definition useContext (context : OrganizationContext) : option Organization :=
  context.

(** [export function useOrganization()]. *)
Definition useOrganization (context : OrganizationContext)
  : Completion JsError Organization :=
  let organization := useContext context in
  match organization with
  | None => Thrown (MkError "useOrganization called but organization is not set.")
  | Some organization => Returned organization
  end.

(** [export function useOrgSlug()]. *)
Definition useOrgSlug (context : OrganizationContext)
  : Completion JsError string :=
  organization ← useOrganization context;
  mret (slug organization).

End UseOrganization.

(** ** The transaction tree row *)
Module TransactionGroup.

(** The identity of a mounted component instance ([this]). *)
Definition InstanceId : Type := nat.

(** A closure handed to a child component, defunctionalised: the bound
    method [this.toggleExpandedState] of the instance [this]. *)
Inductive Callback :=
| ToggleExpandedStateOf (this : InstanceId).

#[global] Instance Callback_eq_dec : EqDecision Callback.
Proof. solve_decision. Defined.

(** The props [./transactionBar] is instantiated with. *)
Module TransactionBar.
Section Props.
Context `{Collaborators}.

Record Props := MkProps {
  location : Location;
  organization : Organization;
  index : Z;
  transaction : Transaction;
  traceInfo : TraceInfo;
  continuingDepths : list TreeDepth;
  isOrphan : bool;
  isLast : bool;
  isExpanded : bool;
  toggleExpandedState : Callback;
  isVisible : bool;
  barColour : option string;
}.

End Props.
End TransactionBar.

Section Component.
Context `{Collaborators}.

(** [type Props]. *)
Record Props := MkProps {
  location : Location;
  organization : Organization;
  transaction : Transaction;
  traceInfo : TraceInfo;
  continuingDepths : list TreeDepth;
  isOrphan : bool;
  isLast : bool;
  index : Z;
  isVisible : bool;
  renderedChildren : list ReactNode;
  barColour : option string;
}.

(** [type State]. *)
Record State := MkState { isExpanded : bool }.

Definition expanded : State := MkState true.
Definition collapsed : State := MkState false.

(** A mounted instance: [this.props] and [this.state]. *)
Record Instance := MkInstance { props : Props; state : State }.

(** All mounted instances, by identity. *)
Definition Store : Type := gmap InstanceId Instance.

(** The class field initialiser [state = {isExpanded: true}]. *)
Definition initialState : State := {| isExpanded := true |}.

(** Constructing the component for [props]. *)
Definition construct (p : Props) : Instance :=
  {| props := p; state := initialState |}.

(** React's [setState] with an updater function, on one instance.  React
    runs queued updaters in call order, each on the state the one before
    it produced, so a call amounts to applying the updater; its result
    replaces the state's only field. *)
Definition setState (updater : State → State) (inst : Instance) : Instance :=
  {| props := props inst; state := updater (state inst) |}.

(** The updater [({isExpanded}) => ({isExpanded: !isExpanded})]. *)
Definition toggleUpdater (s : State) : State :=
  {| isExpanded := negb (isExpanded s) |}.

(** [toggleExpandedState = () => { this.setState(...) }]. *)
Definition toggleExpandedState (inst : Instance) : Instance :=
  setState toggleUpdater inst.

(** The value of [isExpanded && renderedChildren]: [false], or the array. *)
Inductive Conditional :=
| JsFalse
| Nodes (nodes : list ReactNode).

Definition jsAnd (b : bool) (nodes : list ReactNode) : Conditional :=
  if b then Nodes nodes else JsFalse.

(** What [render] returns: a fragment holding the [TransactionBar]
    element and the conditional expression. *)
Record Rendered := Fragment {
  bar : TransactionBar.Props;
  below : Conditional;
}.

(** [render()]. *)
Definition render (this : InstanceId) (inst : Instance) : Rendered :=
  let '(MkProps location organization transaction traceInfo continuingDepths
          isOrphan isLast index isVisible renderedChildren barColour) :=
    props inst in
  let '(MkState isExpanded) := state inst in
  Fragment
    {| TransactionBar.location := location;
       TransactionBar.organization := organization;
       TransactionBar.index := index;
       TransactionBar.transaction := transaction;
       TransactionBar.traceInfo := traceInfo;
       TransactionBar.continuingDepths := continuingDepths;
       TransactionBar.isOrphan := isOrphan;
       TransactionBar.isLast := isLast;
       TransactionBar.isExpanded := isExpanded;
       TransactionBar.toggleExpandedState := ToggleExpandedStateOf this;
       TransactionBar.isVisible := isVisible;
       TransactionBar.barColour := barColour |}
    (jsAnd isExpanded renderedChildren).

(** The members of a rendered fragment that React puts on screen, in
    order: [false] puts nothing, an array puts its items. *)
Inductive Item :=
| BarItem (p : TransactionBar.Props)
| NodeItem (n : ReactNode).

Definition displayed (r : Rendered) : list Item :=
  BarItem (bar r) ::
  match below r with
  | JsFalse => []
  | Nodes nodes => NodeItem <$> nodes
  end.

(** What can happen to a mounted instance: its bound toggle method is
    called, React calls [render], or the parent re-renders it with new
    props (the class declares no other method and no lifecycle hook). *)
Inductive Operation :=
| CallToggleExpandedState
| CallRender
| ReceiveProps (p : Props).

Definition perform (op : Operation) (inst : Instance) : Instance :=
  match op with
  | CallToggleExpandedState => toggleExpandedState inst
  | CallRender => inst
  | ReceiveProps p => {| props := p; state := state inst |}
  end.

(** Mounting a new instance under a fresh identity. *)
Definition mount (this : InstanceId) (p : Props) (σ : Store) : Store :=
  <[this := construct p]> σ.

(** Mounting a new instance: React gives it an identity no mounted
    instance has. *)
Definition mountFresh (p : Props) (σ : Store) : InstanceId * Store :=
  let this := fresh (dom σ) in
  (this, mount this p σ).

(** Invoking a callback that a bar received: it reaches the instance that
    bound it and no other. *)
Definition invoke (cb : Callback) (σ : Store) : Store :=
  match cb with
  | ToggleExpandedStateOf this => alter toggleExpandedState this σ
  end.

(** Rendering the instance mounted under [this], if any. *)
Definition renderAt (this : InstanceId) (σ : Store) : option Rendered :=
  render this <$> σ !! this.

(** [n] calls of the bound toggle method, one after the other. *)
Definition toggleTimes (n : nat) (inst : Instance) : Instance :=
  Nat.iter n toggleExpandedState inst.

(** The bar's props with another [isExpanded] attribute. *)
Definition withExpanded (b : bool) (p : TransactionBar.Props)
  : TransactionBar.Props :=
  {| TransactionBar.location := TransactionBar.location p;
     TransactionBar.organization := TransactionBar.organization p;
     TransactionBar.index := TransactionBar.index p;
     TransactionBar.transaction := TransactionBar.transaction p;
     TransactionBar.traceInfo := TransactionBar.traceInfo p;
     TransactionBar.continuingDepths := TransactionBar.continuingDepths p;
     TransactionBar.isOrphan := TransactionBar.isOrphan p;
     TransactionBar.isLast := TransactionBar.isLast p;
     TransactionBar.isExpanded := b;
     TransactionBar.toggleExpandedState := TransactionBar.toggleExpandedState p;
     TransactionBar.isVisible := TransactionBar.isVisible p;
     TransactionBar.barColour := TransactionBar.barColour p |}.

End Component.

(** The store is a [gmap] under the names [Store] and [InstanceId]:
    expose it before rewriting with the map lemmas. *)
Ltac unfold_store :=
  unfold invoke, mountFresh, mount, renderAt; unfold Store, InstanceId in *.

End TransactionGroup.

(** ** The dashboard route container *)
Module DashboardsV2.

(** Modelled from the spec: [DashboardState] is declared in [./types],
    which is not among the sources.  [VIEW] is the member the container
    names; [OTHER_STATE] stands for the members it does not. *)
Inductive DashboardState :=
| VIEW
| OTHER_STATE (name : string).

Section Container.
Context `{Collaborators}.

(** [type Props]: the members of [RouteComponentProps] the container
    reads, and the three it declares itself. *)
Record Props := MkProps {
  location : Location;
  params : RouteParams;
  api : Client;
  organization : Organization;
  children : ReactNode;
}.

(** Modelled from the spec: the argument [OrgDashboards] (declared in
    [./orgDashboards], not among the sources) calls its function child
    with, of the shape [{dashboard, dashboards, error, reloadData}].
    [error] and [dashboard] may be absent. *)
Record LoaderResult := MkLoaderResult {
  dashboard : option DashboardDetails;
  dashboards : DashboardList;
  error : option bool;
  reloadData : ReloadData;
}.

(** The props [DashboardDetail] is instantiated with: the container's
    props spread, then the four attributes written after the spread. *)
Record DashboardDetailProps := MkDashboardDetailProps {
  spread : Props;
  initialState : DashboardState;
  detailDashboard : DashboardDetails;
  detailDashboards : DashboardList;
  detailReloadData : ReloadData;
}.

(** The elements the function child can return. *)
Inductive View :=
| NotFound
| DashboardDetail (p : DashboardDetailProps)
| LoadingIndicator.

(** The props [OrgDashboards] is instantiated with; [render] is its
    function child. *)
Record OrgDashboardsProps := MkOrgDashboardsProps {
  loaderApi : Client;
  loaderLocation : Location;
  loaderParams : RouteParams;
  loaderOrganization : Organization;
  render : LoaderResult → View;
}.

(** The elements the container can return. *)
Inductive Element :=
| Fragment (children : ReactNode)
| DashboardBasicFeature (organization : Organization)
    (child : OrgDashboardsProps).

(** Truthiness of the [error] flag in [error ? ... : ...]. *)
Definition truthy (flag : option bool) : bool :=
  match flag with
  | Some true => true
  | _ => false
  end.

(** The function child
    [({dashboard, dashboards, error, reloadData}) => ...]; it closes over
    the container's [props]. *)
Definition renderLoaded (props : Props) (result : LoaderResult) : View :=
  let '(MkLoaderResult dashboard dashboards error reloadData) := result in
  if truthy error then NotFound
  else
    match dashboard with
    | Some dashboard =>
        DashboardDetail
          {| spread := props;
             initialState := VIEW;
             detailDashboard := dashboard;
             detailDashboards := dashboards;
             detailReloadData := reloadData |}
    | None => LoadingIndicator
    end.

(** [function DashboardsV2Container(props: Props)]. *)
Definition DashboardsV2Container (props : Props) : Element :=
  let '(MkProps location params api organization children) := props in
  if includes (features organization) "dashboards-edit" then
    Fragment children
  else
    DashboardBasicFeature organization
      {| loaderApi := api;
         loaderLocation := location;
         loaderParams := params;
         loaderOrganization := organization;
         render := renderLoaded props |}.

(** The data-loading element inside what the container returned, when
    there is one. *)
Definition loaderOf (e : Element) : option OrgDashboardsProps :=
  match e with
  | Fragment _ => None
  | DashboardBasicFeature _ child => Some child
  end.

End Container.
End DashboardsV2.

(** ** Sample values

    Concrete collaborator types and props, to run the components on. *)
Definition sampleCollaborators : Collaborators :=
  {| Location := string;
     RouteParams := string;
     Client := unit;
     ReactNode := string;
     Transaction := string;
     TraceInfo := unit;
     TreeDepth := nat;
     DashboardDetails := string;
     DashboardList := list string;
     ReloadData := unit |}.

Definition sampleOrganization : Organization :=
  {| slug := "acme"; features := ["discover-basic"; "performance-view"] |}.

Definition sampleRow (name : string) (rendered : list string)
  : @TransactionGroup.Props sampleCollaborators :=
  @TransactionGroup.MkProps sampleCollaborators
    "/performance/trace/" sampleOrganization name tt [] false true 0%Z true
    rendered None.

Definition sampleRoute (org : Organization)
  : @DashboardsV2.Props sampleCollaborators :=
  @DashboardsV2.MkProps sampleCollaborators
    "/dashboards/" "acme" tt org "children".

(** Two rows mounted one after the other into an empty store. *)
Definition sampleStore : @TransactionGroup.Store sampleCollaborators :=
  (TransactionGroup.mountFresh (sampleRow "child" ["C"])
     (TransactionGroup.mountFresh (sampleRow "root" ["A"; "B"]) ∅).2).2.

(** * Properties *)

(** ** The breadcrumb icon selector *)
Section IconProperties.
Import BreadcrumbIcon.

(** The values without a [case] label are exactly the unlisted ones. *)
Lemma isDefined_false_iff (t : BreadcrumbType) :
  isDefined t = false ↔ ∃ raw, t = UNLISTED raw.
Proof.
  split.
  - destruct t; try discriminate. eauto.
  - intros [raw ->]. reflexivity.
Qed.

(** Every case label is a row of the reference table and the selector
    returns that row's component at size ["xs"]. *)
Lemma Icon_matches_table (t : BreadcrumbType) :
  isDefined t = true →
  tableLookup t referenceTable = Some (component (Icon (MkProps t)))
  ∧ size (Icon (MkProps t)) = "xs".
Proof. destruct t; (discriminate || (intros _; split; reflexivity)). Qed.

(** C1, as the specification states it, fails: [USER] and [UI] are two
    distinct defined categories and the selector returns the same glyph,
    [<IconUser size="xs" />], for both. *)
Lemma Icon_USER_UI_same_glyph :
  isDefined USER = true ∧ isDefined UI = true ∧ USER ≠ UI
  ∧ Icon (MkProps USER) = Icon (MkProps UI)
  ∧ ¬ distinctGlyphs.
Proof.
  repeat split; try reflexivity; try discriminate.
  intros Hdistinct.
  apply (Hdistinct USER UI); (reflexivity || discriminate).
Qed.

(** C1, amended: for every defined category the selector returns the
    glyph the reference table gives for it, and two distinct defined
    categories get the same glyph exactly when they are [USER] and [UI];
    every other pair of distinct defined categories gets distinct glyphs. *)
Theorem Icon_distinct_except_USER_UI (a b : BreadcrumbType) :
  isDefined a = true → isDefined b = true → a ≠ b →
  (Icon (MkProps a) = Icon (MkProps b)
     ↔ (a = USER ∧ b = UI) ∨ (a = UI ∧ b = USER))
  ∧ tableLookup a referenceTable = Some (component (Icon (MkProps a)))
  ∧ tableLookup b referenceTable = Some (component (Icon (MkProps b))).
Proof.
  intros Ha Hb Hab.
  split; [| split; [apply (Icon_matches_table a Ha) | apply (Icon_matches_table b Hb)]].
  split.
  - destruct a, b; try discriminate; try congruence; intros _; tauto.
  - intros [[-> ->] | [-> ->]]; reflexivity.
Qed.

(** The amended property at [USER] and [UI]. *)
Lemma Icon_distinct_except_USER_UI_witness :
  isDefined USER = true ∧ isDefined UI = true ∧ USER ≠ UI
  ∧ ((Icon (MkProps USER) = Icon (MkProps UI)
        ↔ (USER = USER ∧ UI = UI) ∨ (USER = UI ∧ UI = USER))
     ∧ tableLookup USER referenceTable
       = Some (component (Icon (MkProps USER)))
     ∧ tableLookup UI referenceTable
       = Some (component (Icon (MkProps UI)))).
Proof.
  assert (Hne : USER ≠ UI) by discriminate.
  repeat apply conj; try reflexivity; try exact Hne;
    apply (Icon_distinct_except_USER_UI USER UI eq_refl eq_refl Hne).
Defined.

(** C7: the selector is total and pure.  Equal inputs give equal
    outputs; every input, listed or not, yields exactly one glyph, which
    is one of the imported icons at size ["xs"]; and an input without a
    case label yields the default glyph. *)
Theorem Icon_total_pure (p q : Props) :
  p = q →
  Icon p = Icon q
  ∧ (∃ g, Icon p = g ∧ isGlyph g = true ∧ ∀ g', Icon p = g' → g' = g)
  ∧ (isDefined (type p) = false → Icon p = defaultGlyph)
  ∧ (∀ raw, Icon (MkProps (UNLISTED raw)) = defaultGlyph).
Proof.
  intros ->. split; [reflexivity |]. split; [| split].
  - exists (Icon q). split; [reflexivity |]. split.
    + destruct q as [[]]; reflexivity.
    + intros g' <-. reflexivity.
  - destruct q as [t]. cbn [type]. intros Hundef.
    apply isDefined_false_iff in Hundef as [raw ->]. reflexivity.
  - reflexivity.
Qed.

(** The selector on a value without a case label. *)
Lemma Icon_total_pure_witness :
  MkProps (UNLISTED "message") = MkProps (UNLISTED "message")
  ∧ Icon (MkProps (UNLISTED "message")) = defaultGlyph.
Proof.
  split; [reflexivity |].
  destruct (Icon_total_pure (MkProps (UNLISTED "message"))
              (MkProps (UNLISTED "message")) eq_refl)
    as (_ & _ & Hdefault & _).
  apply Hdefault. reflexivity.
Defined.

End IconProperties.

(** ** The organization accessors *)
Section UseOrganizationProperties.
Import UseOrganization.

(** The base accessor, by cases on the context value. *)
Lemma useOrganization_cases (context : OrganizationContext) :
  match context with
  | Some organization => useOrganization context = Returned organization
  | None =>
      useOrganization context
      = Thrown (MkError "useOrganization called but organization is not set.")
  end.
Proof. destruct context; reflexivity. Qed.

(** C6: the accessor throws exactly when the context value is unset, and
    the error it throws carries a non-empty message; when the value is
    set, it returns that very value. *)
Theorem useOrganization_throws_iff_unset (context : OrganizationContext) :
  ((∃ e, useOrganization context = Thrown e) ↔ context = None)
  ∧ match context with
    | Some organization => useOrganization context = Returned organization
    | None =>
        ∃ e, useOrganization context = Thrown e
             ∧ message e = "useOrganization called but organization is not set."
             ∧ message e ≠ ""
    end.
Proof.
  pose proof (useOrganization_cases context) as Hcases.
  destruct context as [organization |]; rewrite Hcases; split.
  - split; [intros [e He]; discriminate He | discriminate].
  - reflexivity.
  - split; [reflexivity | eauto].
  - eexists. split; [reflexivity |]. split; [reflexivity | discriminate].
Qed.

(** C9: [useOrgSlug] is the base accessor followed by the [slug]
    projection, and with the context holding an organization whose slug is
    ["acme"] it returns ["acme"]. *)
Theorem useOrgSlug_projects_slug
    (context : OrganizationContext) (fs : list string) :
  useOrgSlug context
  = match useOrganization context with
    | Returned organization => Returned (slug organization)
    | Thrown e => Thrown e
    end
  ∧ useOrgSlug (Some {| slug := "acme"; features := fs |}) = Returned "acme".
Proof. split; reflexivity. Qed.

(** C10: with the context value unset the derived accessor throws the
    base accessor's error and returns nothing; it throws in no other
    case. *)
Theorem useOrgSlug_throws_when_unset (context : OrganizationContext) :
  useOrgSlug None
  = Thrown (MkError "useOrganization called but organization is not set.")
  ∧ (∀ s, useOrgSlug None ≠ Returned s)
  ∧ ((∃ e, useOrgSlug context = Thrown e) ↔ context = None)
  ∧ ((∃ e, useOrganization context = Thrown e)
       ↔ (∃ e, useOrgSlug context = Thrown e)).
Proof.
  split; [reflexivity |]. split; [discriminate |].
  pose proof (useOrganization_cases context) as Hcases.
  unfold useOrgSlug, mbind, Completion_bind.
  destruct context as [organization |]; rewrite Hcases; cbn.
  - split; split; try discriminate; intros [e He]; discriminate He.
  - split; split; eauto.
Qed.

End UseOrganizationProperties.

(** ** The transaction tree row *)
Section TransactionGroupProperties.
Import TransactionGroup.
Context `{Collaborators}.

Lemma toggleUpdater_involutive (s : State) :
  toggleUpdater (toggleUpdater s) = s.
Proof. destruct s as [[]]; reflexivity. Qed.

Lemma toggleExpandedState_involutive (inst : Instance) :
  toggleExpandedState (toggleExpandedState inst) = inst.
Proof.
  destruct inst as [p s]. unfold toggleExpandedState, setState. cbn.
  by rewrite toggleUpdater_involutive.
Qed.

(** A callback reaches the instance that bound it. *)
Lemma invoke_lookup_this (this : InstanceId) (σ : Store) :
  invoke (ToggleExpandedStateOf this) σ !! this
  = toggleExpandedState <$> σ !! this.
Proof. unfold_store. by rewrite lookup_alter_eq. Qed.

(** ... and no other instance. *)
Lemma invoke_lookup_other (this other : InstanceId) (σ : Store) :
  this ≠ other →
  invoke (ToggleExpandedStateOf this) σ !! other = σ !! other.
Proof. intros Hne. unfold_store. by rewrite lookup_alter_ne. Qed.

Lemma invoke_twice (cb : Callback) (σ : Store) :
  invoke cb (invoke cb σ) = σ.
Proof.
  destruct cb as [this].
  apply (map_eq (M := gmap nat)). intros i.
  destruct (decide (this = i)) as [<- | Hne].
  - rewrite !invoke_lookup_this. unfold Store, InstanceId in *.
    destruct (σ !! this) as [inst |]; cbn; [| done].
    by rewrite toggleExpandedState_involutive.
  - by rewrite !invoke_lookup_other.
Qed.

(** Two instances mounted one after the other have distinct identities. *)
Lemma mountFresh_distinct (p q : Props) (σ : Store) :
  (mountFresh p σ).1 ≠ (mountFresh q (mountFresh p σ).2).1.
Proof.
  unfold_store. cbn. intros Heq.
  apply (is_fresh (dom (<[fresh (dom σ) := construct p]> σ))).
  rewrite <- Heq. rewrite dom_insert_L. set_solver.
Qed.

(** C2: the expansion state machine.  A state is expanded or collapsed
    and the two differ; a newly constructed row is expanded; the toggle
    turns expanded into collapsed and collapsed into expanded, so two
    toggles give back the state (on the instance and in the store, through
    the callback); and of the operations on an instance only the toggle
    changes the expansion state. *)
Theorem expansion_state_machine
    (p : Props) (s : State) (inst : Instance) (op : Operation)
    (this : InstanceId) (σ : Store) :
  (s = expanded ∨ s = collapsed) ∧ expanded ≠ collapsed
  ∧ state (construct p) = expanded
  ∧ mount this p σ !! this = Some {| props := p; state := expanded |}
  ∧ toggleUpdater expanded = collapsed
  ∧ toggleUpdater collapsed = expanded
  ∧ state (toggleExpandedState inst) = toggleUpdater (state inst)
  ∧ toggleUpdater (toggleUpdater s) = s
  ∧ toggleExpandedState (toggleExpandedState inst) = inst
  ∧ invoke (ToggleExpandedStateOf this)
      (invoke (ToggleExpandedStateOf this) σ) = σ
  ∧ state (perform op inst)
    = match op with
      | CallToggleExpandedState => toggleUpdater (state inst)
      | CallRender | ReceiveProps _ => state inst
      end.
Proof.
  repeat apply conj.
  - destruct s as [[]]; [left | right]; reflexivity.
  - discriminate.
  - reflexivity.
  - unfold_store. by rewrite lookup_insert_eq.
  - reflexivity.
  - reflexivity.
  - reflexivity.
  - apply toggleUpdater_involutive.
  - apply toggleExpandedState_involutive.
  - apply invoke_twice.
  - destruct op; reflexivity.
Qed.

(** C3: whatever the props and the expansion state, [render] returns the
    bar, instantiated with the props passed through, the current expansion
    state and the instance's own toggle callback; below the bar it puts
    the caller's [renderedChildren] exactly when the state is expanded,
    and when it is collapsed nothing but the bar is displayed. *)
Theorem render_bar_and_children
    (this : InstanceId) (p : Props) (s : State) :
  let r := render this {| props := p; state := s |} in
  bar r
  = {| TransactionBar.location := location p;
       TransactionBar.organization := organization p;
       TransactionBar.index := index p;
       TransactionBar.transaction := transaction p;
       TransactionBar.traceInfo := traceInfo p;
       TransactionBar.continuingDepths := continuingDepths p;
       TransactionBar.isOrphan := isOrphan p;
       TransactionBar.isLast := isLast p;
       TransactionBar.isExpanded := isExpanded s;
       TransactionBar.toggleExpandedState := ToggleExpandedStateOf this;
       TransactionBar.isVisible := isVisible p;
       TransactionBar.barColour := barColour p |}
  ∧ (below r = Nodes (renderedChildren p) ↔ isExpanded s = true)
  ∧ (below r = JsFalse ↔ isExpanded s = false)
  ∧ displayed r
    = BarItem (bar r)
      :: (if isExpanded s then NodeItem <$> renderedChildren p else []).
Proof.
  destruct p, s as [[]]; cbn; repeat apply conj;
    try reflexivity; try discriminate; try (intros _; reflexivity);
    intros Habs; discriminate Habs.
Qed.

(** C8: the expansion state belongs to one instance.  Toggling one
    instance leaves every instance with another identity as it was: the
    same props and state in the store, the same render result and the
    same items displayed. *)
Theorem toggle_is_local (this other : InstanceId) (σ : Store) :
  this ≠ other →
  let σ' := invoke (ToggleExpandedStateOf this) σ in
  σ' !! other = σ !! other
  ∧ state <$> σ' !! other = state <$> σ !! other
  ∧ renderAt other σ' = renderAt other σ
  ∧ (displayed <$> renderAt other σ') = (displayed <$> renderAt other σ).
Proof.
  intros Hne σ'. subst σ'. unfold renderAt.
  rewrite (invoke_lookup_other this other σ Hne). done.
Qed.

End TransactionGroupProperties.

Section TransactionGroupExamples.
Import TransactionGroup.
#[local] Existing Instance sampleCollaborators.

(** The two sample rows got the identities 0 and 1. *)
Example sampleStore_identities :
  (mountFresh (sampleRow "root" ["A"; "B"]) ∅).1 = 0
  ∧ (mountFresh (sampleRow "child" ["C"])
       (mountFresh (sampleRow "root" ["A"; "B"]) ∅).2).1 = 1.
Proof. split; vm_compute; reflexivity. Qed.

(** The first render of the root row shows its bar, then A and B; one
    call of the toggle callback leaves the bar alone; a second call brings
    A and B back. *)
Example sampleStore_toggle_root :
  let shows σ :=
    (λ r, match displayed r with
          | BarItem _ :: rest => Some rest
          | _ => None
          end) <$> renderAt 0 σ in
  let toggle := invoke (ToggleExpandedStateOf 0) in
  shows sampleStore = Some (Some [NodeItem "A"; NodeItem "B"])
  ∧ shows (toggle sampleStore) = Some (Some [])
  ∧ shows (toggle (toggle sampleStore))
    = Some (Some [NodeItem "A"; NodeItem "B"]).
Proof. repeat split; vm_compute; reflexivity. Qed.

(** Toggling the root row of the sample store collapses it and leaves
    the other row as it was. *)
Lemma toggle_is_local_witness :
  0 ≠ 1
  ∧ (state <$> invoke (ToggleExpandedStateOf 0) sampleStore !! 0
     = Some collapsed)
  ∧ (invoke (ToggleExpandedStateOf 0) sampleStore !! 1 = sampleStore !! 1
     ∧ state <$> invoke (ToggleExpandedStateOf 0) sampleStore !! 1
       = state <$> sampleStore !! 1
     ∧ renderAt 1 (invoke (ToggleExpandedStateOf 0) sampleStore)
       = renderAt 1 sampleStore
     ∧ (displayed <$> renderAt 1 (invoke (ToggleExpandedStateOf 0) sampleStore))
       = (displayed <$> renderAt 1 sampleStore)).
Proof.
  assert (Hne : 0 ≠ 1) by lia.
  split; [exact Hne |]. split; [vm_compute; reflexivity |].
  exact (toggle_is_local 0 1 sampleStore Hne).
Defined.

End TransactionGroupExamples.

(** ** The dashboard route container *)
Section DashboardsV2Properties.
Import DashboardsV2.
Context `{Collaborators}.

(** [includes] decides membership. *)
Lemma includes_elem_of (xs : list string) (x : string) :
  includes xs x = true ↔ x ∈ xs.
Proof.
  induction xs as [| y rest IH]; cbn.
  - split; [discriminate | intros Hin; inversion Hin].
  - destruct (String.eqb_spec y x) as [-> | Hne].
    + split; [intros _; left | reflexivity].
    + rewrite IH. split; [by right |].
      intros Hin. inversion Hin; [congruence | assumption].
Qed.

(** The function child, by cases on the loader result. *)
Lemma renderLoaded_cases (props : Props) (result : LoaderResult) :
  renderLoaded props result
  = match error result, dashboard result with
    | Some true, _ => NotFound
    | _, Some d =>
        DashboardDetail
          {| spread := props;
             initialState := VIEW;
             detailDashboard := d;
             detailDashboards := dashboards result;
             detailReloadData := reloadData result |}
    | _, None => LoadingIndicator
    end.
Proof. destruct result as [[d |] ds [[] |] reload]; reflexivity. Qed.

(** C4: without the [dashboards-edit] feature the container returns the
    data-loading element (inside the basic-feature gate, with the
    container's api, location, params and organization), and the function
    child it hands over maps a loader result to one of three elements, in
    this order: not-found when the error flag is set; otherwise, when a
    dashboard is present, the detail view with [initialState = VIEW], that
    dashboard, the dashboards list and the reload callback; otherwise the
    loading indicator. *)
Theorem container_without_edit_by_priority (props : Props) :
  includes (features (organization props)) "dashboards-edit" = false →
  ∃ loader,
    DashboardsV2Container props
    = DashboardBasicFeature (organization props) loader
    ∧ loaderOf (DashboardsV2Container props) = Some loader
    ∧ loaderApi loader = api props
    ∧ loaderLocation loader = location props
    ∧ loaderParams loader = params props
    ∧ loaderOrganization loader = organization props
    ∧ ∀ result,
        (error result = Some true → render loader result = NotFound)
        ∧ (error result ≠ Some true →
           ∀ d, dashboard result = Some d →
                render loader result
                = DashboardDetail
                    {| spread := props;
                       initialState := VIEW;
                       detailDashboard := d;
                       detailDashboards := dashboards result;
                       detailReloadData := reloadData result |})
        ∧ (error result ≠ Some true →
           dashboard result = None →
           render loader result = LoadingIndicator).
Proof.
  destruct props as [loc par cli org chi]. cbn [organization].
  intros Hfeature. unfold DashboardsV2Container. rewrite Hfeature.
  eexists. repeat apply conj; try reflexivity.
  intros result. cbn [render]. rewrite renderLoaded_cases.
  repeat apply conj.
  - by intros ->.
  - intros Herr d ->. by destruct (error result) as [[] |].
  - intros Herr ->. by destruct (error result) as [[] |].
Qed.

(** C5: with the [dashboards-edit] feature the container returns its
    children, wrapped in a fragment and otherwise untouched; what it
    returns holds no data-loading element, so no loader result reaches
    it. *)
Theorem container_with_edit_passes_children (props : Props) :
  includes (features (organization props)) "dashboards-edit" = true →
  DashboardsV2Container props = Fragment (children props)
  ∧ loaderOf (DashboardsV2Container props) = None.
Proof.
  destruct props as [loc par cli org chi]. cbn [organization children].
  intros Hfeature. unfold DashboardsV2Container. rewrite Hfeature.
  split; reflexivity.
Qed.

End DashboardsV2Properties.

Section DashboardsV2Examples.
Import DashboardsV2.
#[local] Existing Instance sampleCollaborators.

(** The three loader results of the specification, on an organization
    without the feature. *)
Example container_sample_results :
  let render := renderLoaded (sampleRoute sampleOrganization) in
  render (MkLoaderResult None [] (Some true) tt) = NotFound
  ∧ render (MkLoaderResult (Some "D") ["D"] None tt)
    = DashboardDetail
        (MkDashboardDetailProps (sampleRoute sampleOrganization)
           VIEW "D" ["D"] tt)
  ∧ render (MkLoaderResult None [] None tt) = LoadingIndicator
  ∧ render (MkLoaderResult (Some "D") ["D"] (Some true) tt) = NotFound.
Proof. repeat split. Qed.

(** The sample organization lacks the feature: the error flag wins over
    a dashboard that is present. *)
Lemma container_without_edit_by_priority_witness :
  includes (features sampleOrganization) "dashboards-edit" = false
  ∧ ∃ loader,
      DashboardsV2Container (sampleRoute sampleOrganization)
      = DashboardBasicFeature sampleOrganization loader
      ∧ render loader (MkLoaderResult (Some "D") ["D"] (Some true) tt)
        = NotFound.
Proof.
  split; [reflexivity |].
  destruct (container_without_edit_by_priority
              (sampleRoute sampleOrganization) eq_refl)
    as (loader & Hreturned & _ & _ & _ & _ & _ & Hrender).
  exists loader. split; [exact Hreturned |].
  apply (Hrender (@MkLoaderResult sampleCollaborators
                    (Some "D") ["D"] (Some true) tt)).
  reflexivity.
Defined.

(** An organization with the feature gets its children back. *)
Lemma container_with_edit_passes_children_witness :
  includes ["dashboards-basic"; "dashboards-edit"] "dashboards-edit" = true
  ∧ DashboardsV2Container
      (sampleRoute (MkOrganization "acme" ["dashboards-basic"; "dashboards-edit"]))
    = Fragment "children"
  ∧ loaderOf
      (DashboardsV2Container
         (sampleRoute (MkOrganization "acme" ["dashboards-basic"; "dashboards-edit"])))
    = None.
Proof.
  split; [reflexivity |].
  exact (container_with_edit_passes_children
           (sampleRoute (MkOrganization "acme" ["dashboards-basic"; "dashboards-edit"]))
           eq_refl).
Defined.

End DashboardsV2Examples.

(** * Further properties *)

(** ** The breadcrumb icon selector *)
Section IconFurtherProperties.
Import BreadcrumbIcon.

(** X1: the default glyph marks the values without a case label, and
    only them: the selector returns [<IconTerminal size="xs" />] exactly
    when the category is none of the twelve it has a label for. *)
Theorem Icon_default_iff_unlisted (p : Props) :
  (Icon p = defaultGlyph ↔ isDefined (type p) = false)
  ∧ (component (Icon p) = IconTerminal ↔ ∃ raw, type p = UNLISTED raw).
Proof.
  destruct p as [t]. cbn [type].
  destruct t; (split; split); try discriminate; try reflexivity; eauto;
    intros [raw Hraw]; discriminate Hraw.
Qed.

(** X2: no import is idle.  Every icon the file imports is the glyph of
    some category, at size ["xs"]; for every icon but [IconTerminal] that
    category is one with a case label. *)
Theorem Icon_uses_every_import (c : IconComponent) :
  ∃ t, Icon (MkProps t) = MkIcon c "xs"
       ∧ isDefined t = negb (bool_decide (c = IconTerminal)).
Proof.
  destruct c;
    [ exists ERROR | exists DEBUG | exists INFO | exists NAVIGATION
    | exists SYSTEM | exists SESSION | exists TRANSACTION | exists QUERY
    | exists HTTP | exists (UNLISTED "") | exists USER | exists WARNING ];
    split; reflexivity.
Qed.

End IconFurtherProperties.

(** ** The transaction tree row *)
Section TransactionGroupFurtherProperties.
Import TransactionGroup.
Context `{Collaborators}.

(** A callback's effect on any identity. *)
Lemma invoke_lookup (this i : InstanceId) (σ : Store) :
  invoke (ToggleExpandedStateOf this) σ !! i
  = if decide (this = i) then toggleExpandedState <$> σ !! i else σ !! i.
Proof.
  destruct (decide (this = i)) as [<- | Hne].
  - apply invoke_lookup_this.
  - by apply invoke_lookup_other.
Qed.

(** X3: only the parity of the number of toggle calls matters.  After an
    even number of calls the instance is as it was, after an odd number it
    is as after one call; a newly constructed row is expanded after [n]
    calls exactly when [n] is even. *)
Theorem toggleTimes_parity (n : nat) (inst : Instance) (p : Props) :
  toggleTimes n inst
  = (if Nat.even n then inst else toggleExpandedState inst)
  ∧ isExpanded (state (toggleTimes n (construct p))) = Nat.even n.
Proof.
  assert (Hparity : ∀ i : Instance,
             toggleTimes n i
             = if Nat.even n then i else toggleExpandedState i).
  { intros i. unfold toggleTimes.
    induction n as [| n IH]; [reflexivity |].
    rewrite Nat.iter_succ, IH, Nat.even_succ, <- Nat.negb_even.
    destruct (Nat.even n); cbn [negb];
      [reflexivity | apply toggleExpandedState_involutive]. }
  split; [apply Hparity |].
  rewrite Hparity. by destruct (Nat.even n).
Qed.

(** X4: render, click, render.  When the callback that [render] handed
    to the bar is invoked, the next render of the same instance passes the
    bar the same props with [isExpanded] negated, and puts the caller's
    children below the bar exactly when the render before did not: of the
    two renders one displays the bar alone and the other the bar and all
    the children. *)
Theorem bar_callback_round_trip
    (this : InstanceId) (inst : Instance) (σ : Store) :
  σ !! this = Some inst →
  let r := render this inst in
  let σ' := invoke (TransactionBar.toggleExpandedState (bar r)) σ in
  ∃ r',
    renderAt this σ' = Some r'
    ∧ bar r' = withExpanded (negb (isExpanded (state inst))) (bar r)
    ∧ below r'
      = jsAnd (negb (isExpanded (state inst))) (renderedChildren (props inst))
    ∧ length (displayed r) + length (displayed r')
      = 2 + length (renderedChildren (props inst)).
Proof.
  intros Hmounted r σ'. subst r σ'.
  exists (render this (toggleExpandedState inst)).
  destruct inst as [p [b]]. destruct p. split.
  - cbn [render props state bar TransactionBar.toggleExpandedState].
    unfold renderAt. rewrite invoke_lookup_this.
    unfold Store, InstanceId in *. by rewrite Hmounted.
  - destruct b; cbn; rewrite ?length_fmap; repeat split; lia.
Qed.

(** X5: toggles commute.  Invoking two callbacks in either order leaves
    the same store, whichever instances bound them. *)
Theorem invoke_commutes (a b : Callback) (σ : Store) :
  invoke a (invoke b σ) = invoke b (invoke a σ).
Proof.
  destruct a as [i], b as [j].
  apply (map_eq (M := gmap nat)). intros k.
  rewrite !invoke_lookup.
  destruct (decide (i = k)), (decide (j = k)); reflexivity.
Qed.


End TransactionGroupFurtherProperties.

Section TransactionGroupFurtherExamples.
Import TransactionGroup.
#[local] Existing Instance sampleCollaborators.

(** The root row of the sample store, rendered, clicked and rendered
    again: the bar is told it is collapsed and nothing is put below it. *)
Lemma bar_callback_round_trip_witness :
  sampleStore !! 0 = Some (construct (sampleRow "root" ["A"; "B"]))
  ∧ ∃ r',
      renderAt 0 (invoke (ToggleExpandedStateOf 0) sampleStore) = Some r'
      ∧ TransactionBar.isExpanded (bar r') = false
      ∧ below r' = JsFalse
      ∧ displayed r' = [BarItem (bar r')].
Proof.
  assert (Hmounted :
            sampleStore !! 0 = Some (construct (sampleRow "root" ["A"; "B"])))
    by (vm_compute; reflexivity).
  split; [exact Hmounted |].
  destruct (bar_callback_round_trip 0 _ sampleStore Hmounted)
    as (r' & Hrender & Hbar & Hbelow & _).
  exists r'. split; [exact Hrender |]. split; [by rewrite Hbar |].
  split; [exact Hbelow |].
  unfold displayed. by rewrite Hbelow.
Defined.

End TransactionGroupFurtherExamples.

(** ** The dashboard route container *)
Section DashboardsV2FurtherProperties.
Import DashboardsV2.
Context `{Collaborators}.

(** The container mounts the data-loading element exactly when
    [includes] answers [false]. *)
Lemma loaderOf_container (props : Props) :
  loaderOf (DashboardsV2Container props) = None
  ↔ includes (features (organization props)) "dashboards-edit" = true.
Proof.
  destruct props as [loc par cli org chi]. cbn [organization].
  unfold DashboardsV2Container.
  destruct (includes (features org) "dashboards-edit"); cbn;
    split; (reflexivity || discriminate).
Qed.

(** X7: which element the function child returns tells the loader state,
    and the other way round.  It returns not-found exactly when the error
    flag is set, so never the detail view or the loading indicator then;
    the loading indicator exactly when there is neither an error nor a
    dashboard; and a detail view exactly when there is a dashboard and no
    error, and then the one with the container's props, [VIEW], that
    dashboard, and the loader's list and reload callback. *)
Theorem renderLoaded_element_kind
    (props : Props) (result : LoaderResult) (dp : DashboardDetailProps) :
  (renderLoaded props result = NotFound ↔ error result = Some true)
  ∧ (renderLoaded props result = LoadingIndicator
       ↔ error result ≠ Some true ∧ dashboard result = None)
  ∧ (renderLoaded props result = DashboardDetail dp
       ↔ error result ≠ Some true
         ∧ dashboard result = Some (detailDashboard dp)
         ∧ dp = {| spread := props;
                   initialState := VIEW;
                   detailDashboard := detailDashboard dp;
                   detailDashboards := dashboards result;
                   detailReloadData := reloadData result |}).
Proof.
  rewrite renderLoaded_cases.
  destruct result as [[d |] ds [[] |] reload], dp as [sp st dd dds dr];
    cbn; repeat apply conj;
    try discriminate; try reflexivity;
    try (intros [Herr _]; by destruct Herr);
    try (intros (_ & Hd & _); discriminate Hd);
    try (intros [_ Hd]; discriminate Hd);
    try (split; [discriminate | reflexivity]);
    try (intros [= <- <- <- <- <-]; repeat split; discriminate);
    try (intros (_ & [= ->] & [= -> -> -> ->]); reflexivity).
Qed.

(** X8: the branch depends on the feature list only through membership
    of ["dashboards-edit"].  The container returns the fragment, with no
    data-loading element, exactly when that string is an element of the
    organization's features, wherever and however often it occurs. *)
Theorem container_branch_by_membership (props : Props) :
  (DashboardsV2Container props = Fragment (children props)
     ↔ "dashboards-edit" ∈ features (organization props))
  ∧ (loaderOf (DashboardsV2Container props) = None
       ↔ "dashboards-edit" ∈ features (organization props))
  ∧ (is_Some (loaderOf (DashboardsV2Container props))
       ↔ "dashboards-edit" ∉ features (organization props)).
Proof.
  rewrite <- !includes_elem_of, <- loaderOf_container.
  destruct props as [loc par cli org chi]. cbn [organization children].
  unfold DashboardsV2Container.
  destruct (includes (features org) "dashboards-edit"); cbn;
    repeat apply conj; try reflexivity; try discriminate;
    try (intros [x Hx]; discriminate Hx);
    try (intros Hno; by destruct Hno); eauto.
Qed.

(** X9: two organizations whose feature lists have the same elements,
    in whatever order and with whatever repetitions, send the container
    down the same branch. *)
Theorem container_branch_same_features (props props' : Props) :
  (∀ f, f ∈ features (organization props)
        ↔ f ∈ features (organization props')) →
  (loaderOf (DashboardsV2Container props) = None
     ↔ loaderOf (DashboardsV2Container props') = None).
Proof.
  intros Hsame.
  rewrite !loaderOf_container, !includes_elem_of. apply Hsame.
Qed.

End DashboardsV2FurtherProperties.

Section DashboardsV2FurtherExamples.
Import DashboardsV2.
#[local] Existing Instance sampleCollaborators.

(** The feature last in one list, first and repeated in the other. *)
Lemma container_branch_same_features_witness :
  (∀ f, f ∈ ["discover"; "dashboards-edit"]
        ↔ f ∈ ["dashboards-edit"; "discover"; "dashboards-edit"])
  ∧ (loaderOf
       (DashboardsV2Container
          (sampleRoute (MkOrganization "acme" ["discover"; "dashboards-edit"])))
     = None
     ↔ loaderOf
         (DashboardsV2Container
            (sampleRoute
               (MkOrganization "acme"
                  ["dashboards-edit"; "discover"; "dashboards-edit"])))
       = None).
Proof.
  assert (Hsame : ∀ f : string,
             f ∈ ["discover"; "dashboards-edit"]
             ↔ f ∈ ["dashboards-edit"; "discover"; "dashboards-edit"]).
  { intros f. rewrite !elem_of_cons, !elem_of_nil. tauto. }
  split; [exact Hsame |].
  exact (container_branch_same_features
           (sampleRoute (MkOrganization "acme" ["discover"; "dashboards-edit"]))
           (sampleRoute
              (MkOrganization "acme"
                 ["dashboards-edit"; "discover"; "dashboards-edit"]))
           Hsame).
Defined.

End DashboardsV2FurtherExamples.
